(** * Medical Data Analyzer: the Streamlit front end [app.py]

    A shallow embedding of the presentation layer of [app.py]: the risk-tier
    branching, the percentage formatting of the f-string, the numbered
    recommendation lines, the [try]/[except] blocks around the two calls
    into [ml_models], and the document-analysis placeholder.

    - Python floats are IEEE 754 binary64 values, modelled by the Standard
      Library's [spec_float] with precision 53 and maximal exponent 1024.
    - Python dictionaries returned by the predictor are [gmap string pyval].
    - Streamlit calls append to a log of [event]s; exceptions are explicit. *)

From Stdlib Require Import ZArith String Ascii List Bool Lia.
From Stdlib Require Import Floats.SpecFloat.
From Stdlib Require Floats.PrimFloat Floats.FloatOps.
From stdpp Require Import base option list strings gmap pretty.

Local Open Scope string_scope.
Local Open Scope list_scope.
Local Open Scope Z_scope.

#[local] Set Warnings "-register-all".

(** ** Binary64 floats *)

Module Float.

Definition prec : Z := 53.
Definition emax : Z := 1024.

Abbreviation float := spec_float.

(** The literals that occur in [app.py] and in the examples of the
    specification, as the binary64 value nearest to the decimal numeral. *)
Definition lit_0_7 : float := S754_finite false 6305039478318694 (-53).
Definition lit_0_4 : float := S754_finite false 7205759403792794 (-54).
Definition lit_100 : float := S754_finite false 7036874417766400 (-46).
Definition lit_1_0 : float := S754_finite false 4503599627370496 (-52).
Definition lit_0_0 : float := S754_zero false.
Definition lit_0_841 : float := S754_finite false 7575054573237174 (-53).
Definition lit_0_84 : float := S754_finite false 7566047373982433 (-53).
Definition lit_0_3 : float := S754_finite false 5404319552844595 (-54).
Definition lit_1_5 : float := S754_finite false 6755399441055744 (-52).
Definition lit_neg_0_2 : float := S754_finite true 7205759403792794 (-55).
Definition lit_25_0 : float := S754_finite false 7036874417766400 (-48).

(** [x >= y], [x <= y] and [x < y] on Python floats: IEEE comparisons, false
    as soon as an operand is a NaN. *)
Definition ge (x y : float) : bool := SFleb y x.
Definition le (x y : float) : bool := SFleb x y.
Definition lt (x y : float) : bool := SFltb x y.

Definition mul (x y : float) : float := SFmul prec emax x y.

Definition is_finite (x : float) : bool :=
  match x with
  | S754_zero _ | S754_finite _ _ _ => true
  | S754_infinity _ | S754_nan => false
  end.

(** Rounding of the rational [n / d] ([0 <= n], [0 < d]) to the nearest
    integer, ties to the even one: the rounding of C's [printf] of a double,
    whose decimal expansion is exact. *)
Definition round_half_even (n d : Z) : Z :=
  let q := n / d in
  let r := n mod d in
  if 2 * r <? d then q
  else if d <? 2 * r then q + 1
  else if Z.even q then q else q + 1.

(** The number of tenths printed for the magnitude [m * 2^e]. *)
Definition tenths (m : positive) (e : Z) : Z :=
  if 0 <=? e then 10 * Z.pos m * 2 ^ e
  else round_half_even (10 * Z.pos m) (2 ^ (- e)).

Definition sign_str (s : bool) : string := if s then "-" else "".

(** [format(x, '.1f')]: fixed point, one digit after the point. *)
Definition format_1f (x : float) : string :=
  match x with
  | S754_nan => "nan"
  | S754_infinity s => sign_str s +:+ "inf"
  | S754_zero s => sign_str s +:+ "0.0"
  | S754_finite s m e =>
      let t := tenths m e in
      sign_str s +:+ pretty (t / 10) +:+ "." +:+ pretty (t mod 10)
  end.

(** [format(x, '.1%')]: CPython multiplies the float by [100.0], formats the
    product with ['.1f'] and appends the percent sign. *)
Definition format_1pct (x : float) : string :=
  format_1f (mul x lit_100) +:+ "%".

End Float.

(** ** Python values, exceptions and dictionaries *)

(** The values the predictor's dictionary can hold in this model: the types
    of the data model (floats, strings, lists) and [None]. *)
Inductive pyval : Type :=
  | VNone
  | VFloat (f : spec_float)
  | VStr (s : string)
  | VList (l : list pyval).

(** [type(v).__name__], as it appears in the interpreter's error messages. *)
Definition type_name (v : pyval) : string :=
  match v with
  | VNone => "NoneType"
  | VFloat _ => "float"
  | VStr _ => "str"
  | VList _ => "list"
  end.

(** An exception object: its class name and [str(e)]. *)
Inductive exception : Type :=
  | Exception (cls : string) (msg : string).

Definition exn_str (e : exception) : string :=
  match e with Exception _ msg => msg end.

Definition KeyError (key : string) : exception :=
  Exception "KeyError" ("'" +:+ key +:+ "'").
Definition TypeError (msg : string) : exception := Exception "TypeError" msg.
Definition ValueError (msg : string) : exception := Exception "ValueError" msg.
Definition NameError (name : string) : exception :=
  Exception "NameError" ("name '" +:+ name +:+ "' is not defined").

(** The outcome of evaluating an expression: a value, or a raised exception. *)
Inductive outcome (A : Type) : Type :=
  | Ok (a : A)
  | Raise (e : exception).
Arguments Ok {A} a.
Arguments Raise {A} e.

#[global] Instance outcome_ret : MRet outcome := fun A a => Ok a.
#[global] Instance outcome_bind : MBind outcome := fun A B f m =>
  match m with
  | Ok a => f a
  | Raise e => Raise e
  end.

Abbreviation dict := (gmap string pyval).

(** [d[key]] *)
Definition getitem (d : dict) (key : string) : outcome pyval :=
  match d !! key with
  | Some v => Ok v
  | None => Raise (KeyError key)
  end.

(** [d.get(key, default)] *)
Definition dict_get (d : dict) (key : string) (default : pyval) : pyval :=
  match d !! key with
  | Some v => v
  | None => default
  end.

(** [v >= c] for a float literal [c]. *)
Definition py_ge (v : pyval) (c : spec_float) : outcome bool :=
  match v with
  | VFloat f => Ok (Float.ge f c)
  | _ => Raise (TypeError ("'>=' not supported between instances of '"
                           +:+ type_name v +:+ "' and 'float'"))
  end.

(** The replacement field [{v:.1%}] of an f-string. *)
Definition format_percent (v : pyval) : outcome string :=
  match v with
  | VFloat f => Ok (Float.format_1pct f)
  | VStr _ => Raise (ValueError "Unknown format code '%' for object of type 'str'")
  | _ => Raise (TypeError ("unsupported format string passed to "
                           +:+ type_name v +:+ ".__format__"))
  end.

(** Strings are byte strings holding UTF-8 text; iterating a Python [str]
    yields its code points, each a lead byte with its continuation bytes. *)
Definition is_continuation (c : ascii) : bool :=
  let n := nat_of_ascii c in (128 <=? n)%nat && (n <? 192)%nat.

Fixpoint utf8_split (s : string) : string * list string :=
  match s with
  | EmptyString => (EmptyString, [])
  | String c rest =>
      let '(pending, chars) := utf8_split rest in
      if is_continuation c then (String c pending, chars)
      else (EmptyString, String c pending :: chars)
  end.

Definition utf8_chars (s : string) : list string :=
  match utf8_split s with
  | (EmptyString, chars) => chars
  | (stray, chars) => stray :: chars
  end.

(** [iter(v)], run to the end. *)
Definition py_iter (v : pyval) : outcome (list pyval) :=
  match v with
  | VList l => Ok l
  | VStr s => Ok (VStr <$> utf8_chars s)
  | _ => Raise (TypeError ("'" +:+ type_name v +:+ "' object is not iterable"))
  end.

(** [enumerate(l, start)] *)
Fixpoint enumerate {A : Type} (l : list A) (start : Z) : list (Z * A) :=
  match l with
  | [] => []
  | x :: l' => (start, x) :: enumerate l' (start + 1)
  end.

(** ** The page: patient records, widgets and Streamlit calls *)

(** The dictionary literal [patient_data] of [render_diabetes_predictor]. *)
Record patient_data : Type := PatientData {
  age : Z;
  bmi : spec_float;
  glucose_level : Z;
  blood_pressure : Z;
  insulin_level : Z;
  family_history : Z;
  physical_activity : Z;
  diet_score : Z;
  stress_level : Z
}.

(** What the input widgets of the prediction tab return in one script run. *)
Record predictor_widgets : Type := PredictorWidgets {
  w_age : Z;
  w_bmi : spec_float;
  w_glucose : Z;
  w_bp : Z;
  w_insulin : Z;
  w_family_history : string;
  w_activity : Z;
  w_diet : Z;
  w_stress : Z;
  w_predict_button : bool
}.

Record uploaded_file : Type := UploadedFile {
  file_name : string;
  file_bytes : string
}.

(** One entry of the log of a script run: an element sent to the page, or a
    call into [ml_models]. *)
Inductive event : Type :=
  | StHeader (body : string)
  | StSubheader (body : string)
  | StMarkdown (body : string)
  | StWrite (body : string)
  | StError (body : string)
  | StInfo (body : string)
  | StSuccess (body : string)
  | StJson (body : patient_data)
  | StMetric (label value : string)
  | StSpinner (text : string)
  | CallPredictDiabetes (arg : patient_data)
  | CallCreateSamplePatientData.

(** A piece of the script: its outcome and the events it logged, in order. *)
Definition ui (A : Type) : Type := (outcome A * list event)%type.

#[global] Instance ui_ret : MRet ui := fun A a => (Ok a, []).
#[global] Instance ui_bind : MBind ui := fun A B f m =>
  match m with
  | (Ok a, t) => let '(r, t') := f a in (r, t ++ t')
  | (Raise e, t) => (Raise e, t)
  end.

Definition emit (ev : event) : ui unit := (Ok tt, [ev]).
Definition lift {A : Type} (r : outcome A) : ui A := (r, []).

(** [try: body / except Exception as e: handler(e)] and the bare [except:].
    Every failure of this model is an [Exception]; the signals outside that
    class ([KeyboardInterrupt], [SystemExit]) are not modelled. *)
Definition try_except {A : Type} (body : ui A) (handler : exception -> ui A) : ui A :=
  match body with
  | (Ok a, t) => (Ok a, t)
  | (Raise e, t) => let '(r, t') := handler e in (r, t ++ t')
  end.

(** [for x in l: body(x)] *)
Fixpoint for_each {A : Type} (l : list A) (body : A -> ui unit) : ui unit :=
  match l with
  | [] => mret tt
  | x :: l' => body x ;; for_each l' body
  end.

Definition returned {A : Type} (m : ui A) : outcome A := fst m.
Definition log {A : Type} (m : ui A) : list event := snd m.

(** The Streamlit calls of [app.py]; layout containers ([st.columns]) and
    keyword arguments that only style an element are left out. *)
Module st.
Definition header (body : string) : ui unit := emit (StHeader body).
Definition subheader (body : string) : ui unit := emit (StSubheader body).
Definition markdown (body : string) : ui unit := emit (StMarkdown body).
Definition write (body : string) : ui unit := emit (StWrite body).
Definition error (body : string) : ui unit := emit (StError body).
Definition info (body : string) : ui unit := emit (StInfo body).
Definition success (body : string) : ui unit := emit (StSuccess body).
Definition json (body : patient_data) : ui unit := emit (StJson body).
Definition metric (label value : string) : ui unit := emit (StMetric label value).
Definition spinner (text : string) : ui unit := emit (StSpinner text).
End st.

(** What [from ml_models import ...] binds when the import succeeds: the
    predictor, which answers a dictionary or raises, and the generator of
    the sample record. *)
Record ml_module : Type := MlModule {
  ml_predict_diabetes : patient_data -> outcome dict;
  ml_create_sample_patient_data : outcome patient_data
}.

(** The double quote, which the HTML fragments contain. *)
Definition dq : string := String (ascii_of_nat 34) EmptyString.

(** The if/elif/else of [render_diabetes_predictor] on [risk_score]: the
    CSS class and the label of the risk level. *)
Definition classify_risk (risk_score : pyval) : outcome (string * string) :=
  high ← py_ge risk_score Float.lit_0_7;
  if (high : bool) then mret ("risk-high", "High Risk")
  else
    medium ← py_ge risk_score Float.lit_0_4;
    if (medium : bool) then mret ("risk-medium", "Medium Risk")
    else mret ("risk-low", "Low Risk").

(** The f-string handed to [st.markdown], with its fields already formatted. *)
Definition prediction_card
    (risk_class prediction risk_level confidence risk_score : string) : string :=
"
                <div class=" +:+ dq +:+ "prediction-result " +:+ risk_class +:+ dq +:+ ">
                    <h3>Prediction Result</h3>
                    <p><strong>Diagnosis:</strong> " +:+ prediction +:+ "</p>
                    <p><strong>Risk Level:</strong> " +:+ risk_level +:+ "</p>
                    <p><strong>Confidence:</strong> " +:+ confidence +:+ "</p>
                    <p><strong>Risk Score:</strong> " +:+ risk_score +:+ "</p>
                </div>
                ".

(** The literal handed to [st.markdown] by [render_document_analyzer]. *)
Definition analysis_summary : string :=
"
                <div class=" +:+ dq +:+ "feature-card" +:+ dq +:+ ">
                    <h4>📊 Analysis Summary</h4>
                    <p><strong>Document Type:</strong> Medical Report</p>
                    <p><strong>Key Findings:</strong> Normal glucose levels, slightly elevated blood pressure</p>
                    <p><strong>Critical Alerts:</strong> None detected</p>
                    <p><strong>Recommendations:</strong> Regular monitoring suggested</p>
                </div>
                ".

Section App.

(** Python's [repr] on the values of the model; [app.py] only prints with
    it what is not a string. *)
Variable repr : pyval -> string.

(** The module [ml_models], or [None] when importing it raises
    [ImportError]: its two names are then unbound. *)
Variable ml_models : option ml_module.

(** [str(v)], which is also [format(v, '')]. *)
Definition py_str (v : pyval) : string :=
  match v with
  | VStr s => s
  | _ => repr v
  end.

(** The [try]/[except ImportError] at the top of the script. *)
Definition import_ml_models : ui unit :=
  match ml_models with
  | Some _ => mret tt
  | None => st.error "Missing dependencies. Please run: pip install -r requirements.txt"
  end.

Definition predict_diabetes (data : patient_data) : ui dict :=
  match ml_models with
  | Some m => emit (CallPredictDiabetes data) ;; lift (ml_predict_diabetes m data)
  | None => lift (Raise (NameError "predict_diabetes"))
  end.

Definition create_sample_patient_data : ui patient_data :=
  match ml_models with
  | Some m => emit CallCreateSamplePatientData ;; lift (ml_create_sample_patient_data m)
  | None => lift (Raise (NameError "create_sample_patient_data"))
  end.

(** The dictionary built under [# Prepare patient data]. *)
Definition prepare_patient_data (w : predictor_widgets) : patient_data :=
  {| age := w_age w;
     bmi := w_bmi w;
     glucose_level := w_glucose w;
     blood_pressure := w_bp w;
     insulin_level := w_insulin w;
     family_history := if String.eqb (w_family_history w) "Yes" then 1 else 0;
     physical_activity := w_activity w;
     diet_score := w_diet w;
     stress_level := w_stress w |}.

(** The statements under [# Display recommendations]. *)
Definition display_recommendations (result : dict) : ui unit :=
  st.subheader "📋 Personalized Recommendations" ;;
  let recommendations := dict_get result "recommendations" (VList []) in
  items ← lift (py_iter recommendations);
  for_each (enumerate items 1)
    (fun '(i, rec) => st.write (pretty i +:+ ". " +:+ py_str rec)).

(** The body of the [try] block of [render_diabetes_predictor]. *)
Definition predict_and_display (data : patient_data) : ui unit :=
  result ← predict_diabetes data;
  prediction ← lift (getitem result "prediction");
  confidence ← lift (getitem result "confidence");
  risk_score ← lift (getitem result "risk_score");
  '(risk_class, risk_level) ← lift (classify_risk risk_score);
  confidence_field ← lift (format_percent confidence);
  risk_score_field ← lift (format_percent risk_score);
  st.markdown (prediction_card risk_class (py_str prediction) risk_level
                 confidence_field risk_score_field) ;;
  display_recommendations result.

(** The [except Exception as e] block of [render_diabetes_predictor]. *)
Definition prediction_failed (e : exception) : ui unit :=
  st.error ("Error making prediction: " +:+ exn_str e) ;;
  st.info "Make sure all dependencies are installed: pip install -r requirements.txt".

(** The [try] statement of [render_diabetes_predictor]. *)
Definition try_block (data : patient_data) : ui unit :=
  try_except (predict_and_display data) prediction_failed.

Definition render_diabetes_predictor (w : predictor_widgets) : ui unit :=
  st.header "🩺 Diabetes Risk Prediction" ;;
  st.subheader "Patient Information" ;;
  st.subheader "Lifestyle Factors" ;;
  let data := prepare_patient_data w in
  if w_predict_button w then
    st.spinner "Analyzing patient data..." ;;
    try_block data
  else mret tt.

Definition render_document_analyzer
    (uploaded : option uploaded_file) (analyze_button : bool) : ui unit :=
  st.header "📄 Medical Document Analysis" ;;
  st.info "📝 Note: Document analysis feature requires OpenAI API key. This is a placeholder interface." ;;
  match uploaded with
  | Some file =>
      st.success ("File '" +:+ file_name file +:+ "' uploaded successfully!") ;;
      if analyze_button then
        st.spinner "Analyzing document..." ;;
        st.markdown analysis_summary
      else mret tt
  | None => mret tt
  end.

Definition render_sidebar (page : string) (sample_button : bool) : ui string :=
  st.header "🎛️ Navigation" ;;
  st.markdown "---" ;;
  st.header "📊 Quick Stats" ;;
  st.metric "Model Accuracy" "84%" ;;
  st.metric "Features Used" "9" ;;
  st.metric "Training Data" "1,000 records" ;;
  st.markdown "---" ;;
  (if sample_button then
     try_except
       (sample_data ← create_sample_patient_data; st.json sample_data)
       (fun _ => st.error "Sample data not available")
   else mret tt) ;;
  mret page.

(** ** What a script run shows: vocabulary of the statements below *)

(** The card of a result: the expressions of the [try] block between the
    call of the predictor and [st.markdown], none of which logs anything. *)
Definition card_of (result : dict) : outcome string :=
  prediction ← getitem result "prediction";
  confidence ← getitem result "confidence";
  risk_score ← getitem result "risk_score";
  '(risk_class, risk_level) ← classify_risk risk_score;
  confidence_field ← format_percent confidence;
  risk_score_field ← format_percent risk_score;
  mret (prediction_card risk_class (py_str prediction) risk_level
          confidence_field risk_score_field).

(** The risk level of a float score, as a pure function of the score. *)
Definition risk_level_of (risk_score : spec_float) : string * string :=
  if Float.ge risk_score Float.lit_0_7 then ("risk-high", "High Risk")
  else if Float.ge risk_score Float.lit_0_4 then ("risk-medium", "Medium Risk")
  else ("risk-low", "Low Risk").

(** The lines written for the items of a recommendation list, the first
    one numbered [n]. *)
Fixpoint numbered (items : list pyval) (n : Z) : list string :=
  match items with
  | [] => []
  | item :: rest => (pretty n +:+ ". " +:+ py_str item) :: numbered rest (n + 1)
  end.

(** The complete display bundle of a prediction: the card with the
    diagnosis, the risk level and the two percentages, then the heading and
    the numbered recommendation lines. *)
Definition display_bundle
    (prediction : pyval) (confidence risk_score : spec_float)
    (items : list pyval) : list event :=
  StMarkdown (prediction_card (fst (risk_level_of risk_score)) (py_str prediction)
                (snd (risk_level_of risk_score))
                (Float.format_1pct confidence) (Float.format_1pct risk_score))
  :: StSubheader "📋 Personalized Recommendations"
  :: (StWrite <$> numbered items 1).

(** The error notice of a failed prediction. *)
Definition error_notice (e : exception) : list event :=
  [ StError ("Error making prediction: " +:+ exn_str e);
    StInfo "Make sure all dependencies are installed: pip install -r requirements.txt" ].

(** The elements above the button of the prediction tab, and the spinner
    shown once it is pressed. *)
Definition predictor_form : list event :=
  [ StHeader "🩺 Diabetes Risk Prediction";
    StSubheader "Patient Information";
    StSubheader "Lifestyle Factors" ].

Definition predictor_spinner : list event :=
  [ StSpinner "Analyzing patient data..." ].

(** The sidebar above its button. *)
Definition sidebar_head : list event :=
  [ StHeader "🎛️ Navigation";
    StMarkdown "---";
    StHeader "📊 Quick Stats";
    StMetric "Model Accuracy" "84%";
    StMetric "Features Used" "9";
    StMetric "Training Data" "1,000 records";
    StMarkdown "---" ].

End App.

(** Calls into [ml_models], as opposed to elements sent to the page. *)
Definition is_call (ev : event) : bool :=
  match ev with
  | CallPredictDiabetes _ | CallCreateSamplePatientData => true
  | _ => false
  end.

(** The elements a log sends to the page. *)
Definition shown (tr : list event) : list event :=
  List.filter (fun ev => negb (is_call ev)) tr.

(** The arguments of the calls to [predict_diabetes] in a log. *)
Definition predictor_calls (tr : list event) : list patient_data :=
  omap (fun ev => match ev with CallPredictDiabetes d => Some d | _ => None end) tr.

(** The analysis output of the document tab: the summary cards of a log. *)
Definition analysis_output (tr : list event) : list string :=
  omap (fun ev => match ev with StMarkdown body => Some body | _ => None end) tr.

Definition is_json (ev : event) : bool :=
  match ev with StJson _ => true | _ => false end.

(** A value [for] can iterate over. *)
Definition iterable (v : pyval) : bool :=
  match v with
  | VList _ | VStr _ => true
  | _ => false
  end.

(** [t] tenths are a nearest integer to ten times the magnitude of [y]. *)
Definition nearest_tenths (y : spec_float) (t : Z) : Prop :=
  match y with
  | S754_zero _ => t = 0
  | S754_finite _ m e =>
      if 0 <=? e then t = 10 * Z.pos m * 2 ^ e
      else 2 * Z.abs (t * 2 ^ (- e) - 10 * Z.pos m) <= 2 ^ (- e)
  | _ => False
  end.

(** ** The static parts of the page: style sheet, header and About page *)

(** The module constant [GLASSMORPHISM_CSS]. *)
Definition GLASSMORPHISM_CSS : string :=
"
<style>
    .main-header {
        background: linear-gradient(135deg, #667eea 0%, #764ba2 100%);
        padding: 2rem;
        border-radius: 15px;
        color: white;
        text-align: center;
        margin-bottom: 2rem;
        backdrop-filter: blur(10px);
        box-shadow: 0 8px 32px 0 rgba(31, 38, 135, 0.37);
    }
    
    .feature-card {
        background: rgba(255, 255, 255, 0.25);
        border-radius: 16px;
        box-shadow: 0 4px 30px rgba(0, 0, 0, 0.1);
        backdrop-filter: blur(5px);
        border: 1px solid rgba(255, 255, 255, 0.3);
        padding: 1.5rem;
        margin: 1rem 0;
    }
    
    .prediction-result {
        background: linear-gradient(135deg, #84fab0 0%, #8fd3f4 100%);
        border-radius: 12px;
        padding: 1.5rem;
        margin: 1rem 0;
        color: #2d3748;
        font-weight: bold;
    }
    
    .risk-high {
        background: linear-gradient(135deg, #ff9a9e 0%, #fecfef 100%);
    }
    
    .risk-medium {
        background: linear-gradient(135deg, #ffecd2 0%, #fcb69f 100%);
    }
    
    .risk-low {
        background: linear-gradient(135deg, #a8edea 0%, #fed6e3 100%);
    }
</style>
".

(** The literal of [render_header]. *)
Definition header_banner : string :=
"
    <div class=" +:+ dq +:+ "main-header" +:+ dq +:+ ">
        <h1>🏥 Medical Data Analyzer</h1>
        <p>AI-Powered Medical Document Analysis & Disease Prediction Platform</p>
    </div>
    ".

(** A card of [render_about_page]. *)
Definition about_purpose : string :=
"
        <div class=" +:+ dq +:+ "feature-card" +:+ dq +:+ ">
            <h4>🎯 Purpose</h4>
            <p>This application combines AI and machine learning to provide medical document analysis and disease prediction capabilities.</p>
        </div>
        ".

(** A card of [render_about_page]. *)
Definition about_technology : string :=
"
        <div class=" +:+ dq +:+ "feature-card" +:+ dq +:+ ">
            <h4>🔬 Technology</h4>
            <ul>
                <li>RandomForest ML Model (84% accuracy)</li>
                <li>Streamlit Web Interface</li>
                <li>Python Backend</li>
                <li>OpenAI Integration (for document analysis)</li>
            </ul>
        </div>
        ".

(** A card of [render_about_page]. *)
Definition about_features : string :=
"
        <div class=" +:+ dq +:+ "feature-card" +:+ dq +:+ ">
            <h4>📋 Features</h4>
            <ul>
                <li>Diabetes risk prediction</li>
                <li>Medical document analysis</li>
                <li>Personalized recommendations</li>
                <li>Professional reporting</li>
            </ul>
        </div>
        ".

(** A card of [render_about_page]. *)
Definition about_privacy : string :=
"
        <div class=" +:+ dq +:+ "feature-card" +:+ dq +:+ ">
            <h4>🔒 Privacy</h4>
            <p>All data processing is performed securely. No patient data is stored permanently on our servers.</p>
        </div>
        ".

Definition load_css : ui unit := st.markdown GLASSMORPHISM_CSS.

Definition render_header : ui unit := st.markdown header_banner.

Definition render_about_page : ui unit :=
  st.header "ℹ️ About Medical Data Analyzer" ;;
  st.markdown about_purpose ;;
  st.markdown about_technology ;;
  st.markdown about_features ;;
  st.markdown about_privacy.

(** What the widgets of the whole page return in one script run: the radio
    and the button of the sidebar, the form of the prediction tab, the
    uploader and the button of the document tab. *)
Record session : Type := Session {
  s_page : string;
  s_sample_button : bool;
  s_widgets : predictor_widgets;
  s_uploaded : option uploaded_file;
  s_analyze_button : bool
}.

Section Main.

Variable repr : pyval -> string.
Variable ml_models : option ml_module.

Definition main (s : session) : ui unit :=
  load_css ;;
  render_header ;;
  selected_page ← render_sidebar ml_models (s_page s) (s_sample_button s);
  if String.eqb selected_page "🩺 Diabetes Prediction" then
    render_diabetes_predictor repr ml_models (s_widgets s)
  else if String.eqb selected_page "📄 Document Analysis" then
    render_document_analyzer (s_uploaded s) (s_analyze_button s)
  else if String.eqb selected_page "ℹ️ About" then
    render_about_page
  else mret tt.

End Main.

(** The style sheet and the banner every run starts with. *)
Definition page_top : list event :=
  [ StMarkdown GLASSMORPHISM_CSS; StMarkdown header_banner ].

(** The document tab above its uploader. *)
Definition analyzer_head : list event :=
  [ StHeader "📄 Medical Document Analysis";
    StInfo "📝 Note: Document analysis feature requires OpenAI API key. This is a placeholder interface." ].

(** The calls of [create_sample_patient_data] in a log. *)
Definition sample_calls (tr : list event) : list event :=
  List.filter (fun ev => match ev with CallCreateSamplePatientData => true | _ => false end) tr.

(** The error boxes of a log. *)
Definition errors_of (tr : list event) : list string :=
  omap (fun ev => match ev with StError body => Some body | _ => None end) tr.


(** ** Inputs of the examples *)

Definition example_widgets : predictor_widgets :=
  {| w_age := 45;
     w_bmi := Float.lit_25_0;
     w_glucose := 100;
     w_bp := 120;
     w_insulin := 80;
     w_family_history := "No";
     w_activity := 3;
     w_diet := 3;
     w_stress := 3;
     w_predict_button := true |}.

Definition example_result : dict :=
  <["prediction" := VStr "Non-diabetic"]>
    (<["confidence" := VFloat Float.lit_0_84]>
       (<["risk_score" := VFloat Float.lit_0_3]>
          (<["recommendations" := VList [VStr "Maintain current diet"]]> ∅))).

Definition example_exception : exception :=
  Exception "RuntimeError" "model file not found".

(** A predictor stub that answers [example_result], one that raises, and one
    whose answer has no recommendations. *)
Definition stub_module : ml_module :=
  {| ml_predict_diabetes := fun _ => Ok example_result;
     ml_create_sample_patient_data := Ok (PatientData 45 Float.lit_25_0 100 120 80 0 3 3 3) |}.

Definition failing_module : ml_module :=
  {| ml_predict_diabetes := fun _ => Raise example_exception;
     ml_create_sample_patient_data := Raise example_exception |}.

Definition terse_module : ml_module :=
  {| ml_predict_diabetes := fun _ => Ok (delete "recommendations" example_result);
     ml_create_sample_patient_data := Raise example_exception |}.

Definition stub_repr (v : pyval) : string := "<object>".

(** A predictor stub that answers the given dictionary. *)
Definition answering (result : dict) : ml_module :=
  {| ml_predict_diabetes := fun _ => Ok result;
     ml_create_sample_patient_data := Ok (PatientData 45 Float.lit_25_0 100 120 80 0 3 3 3) |}.

Definition example_session : session :=
  {| s_page := "🩺 Diabetes Prediction";
     s_sample_button := false;
     s_widgets := example_widgets;
     s_uploaded := None;
     s_analyze_button := false |}.

(** * Properties *)

#[local] Arguments String.append : simpl never.
#[local] Arguments pretty : simpl never.
#[local] Arguments Float.ge : simpl never.
#[local] Arguments Float.format_1pct : simpl never.
#[local] Arguments prediction_card : simpl never.

(** ** Order of binary64 values against the literals *)

Lemma pos_compare_cont_Z (a b : positive) :
  PosDef.Pos.compare_cont Eq a b = (Z.pos a ?= Z.pos b).
Proof. reflexivity. Qed.

Ltac compare_cases :=
  repeat match goal with
  | |- context [PosDef.Pos.compare_cont Eq ?a ?b] =>
      rewrite (pos_compare_cont_Z a b)
  | |- context [Z.compare ?a ?b] =>
      let E := fresh "E" in
      destruct (Z.compare a b) eqn:E;
      [ apply Z.compare_eq_iff in E
      | pose proof (proj1 (Z.compare_lt_iff a b) E)
      | pose proof (proj1 (Z.compare_gt_iff a b) E) ]
  end.

Ltac float_unfold :=
  unfold Float.ge, Float.le, Float.lt, SFleb, SFltb,
    Float.lit_0_0, Float.lit_0_4, Float.lit_0_7, Float.lit_1_0.

Ltac float_order :=
  float_unfold;
  match goal with f : spec_float |- _ => destruct f as [[]|[]| |[] ? ?] end;
  cbn [SFcompare]; compare_cases; intros;
  first [ discriminate | reflexivity | (exfalso; lia)
        | (split; first [reflexivity | (exfalso; lia)]) ].

Lemma low_band (f : spec_float) :
  Float.lt f Float.lit_0_4 = true ->
  Float.ge f Float.lit_0_7 = false /\ Float.ge f Float.lit_0_4 = false.
Proof. float_order. Qed.

Lemma medium_band (f : spec_float) :
  Float.lt f Float.lit_0_7 = true -> Float.ge f Float.lit_0_7 = false.
Proof. float_order. Qed.

Lemma above_one (f : spec_float) :
  Float.lt Float.lit_1_0 f = true -> Float.ge f Float.lit_0_7 = true.
Proof. float_order. Qed.

Lemma below_zero (f : spec_float) :
  Float.lt f Float.lit_0_0 = true ->
  Float.ge f Float.lit_0_7 = false /\ Float.ge f Float.lit_0_4 = false.
Proof. float_order. Qed.

Lemma classify_risk_float (f : spec_float) :
  classify_risk (VFloat f) = Ok (risk_level_of f).
Proof.
  unfold classify_risk, risk_level_of. cbn.
  destruct (Float.ge f Float.lit_0_7); [reflexivity|].
  cbn. destruct (Float.ge f Float.lit_0_4); reflexivity.
Qed.

(** The literals of the script are the binary64 values that Rocq's own
    reader of float numerals gives for the same decimal numerals. *)
Module Literals.
Import Floats.PrimFloat.
#[local] Set Warnings "-inexact-float".

Lemma literals_as_read :
  FloatOps.Prim2SF 0.7%float = Float.lit_0_7 /\
  FloatOps.Prim2SF 0.4%float = Float.lit_0_4 /\
  FloatOps.Prim2SF 100%float = Float.lit_100 /\
  FloatOps.Prim2SF 1%float = Float.lit_1_0 /\
  FloatOps.Prim2SF 0%float = Float.lit_0_0 /\
  FloatOps.Prim2SF 0.841%float = Float.lit_0_841 /\
  FloatOps.Prim2SF 0.84%float = Float.lit_0_84 /\
  FloatOps.Prim2SF 0.3%float = Float.lit_0_3 /\
  FloatOps.Prim2SF 1.5%float = Float.lit_1_5 /\
  FloatOps.Prim2SF (-0.2)%float = Float.lit_neg_0_2 /\
  FloatOps.Prim2SF 25%float = Float.lit_25_0.
Proof. repeat split; reflexivity. Qed.

End Literals.

(** ** C1 *)

(** C1. The risk level follows the fixed thresholds: a score in [0, 0.4) is
    Low Risk, a score in [0.4, 0.7) is Medium Risk, a score in [0.7, 1.0] is
    High Risk; the boundary scores 0.4 and 0.7 are Medium and High. *)
Theorem risk_level_thresholds (risk_score : spec_float) :
  (Float.ge risk_score Float.lit_0_0 = true ->
   Float.lt risk_score Float.lit_0_4 = true ->
   classify_risk (VFloat risk_score) = Ok ("risk-low", "Low Risk")) /\
  (Float.ge risk_score Float.lit_0_4 = true ->
   Float.lt risk_score Float.lit_0_7 = true ->
   classify_risk (VFloat risk_score) = Ok ("risk-medium", "Medium Risk")) /\
  (Float.ge risk_score Float.lit_0_7 = true ->
   Float.le risk_score Float.lit_1_0 = true ->
   classify_risk (VFloat risk_score) = Ok ("risk-high", "High Risk")) /\
  classify_risk (VFloat Float.lit_0_4) = Ok ("risk-medium", "Medium Risk") /\
  classify_risk (VFloat Float.lit_0_7) = Ok ("risk-high", "High Risk").
Proof.
  rewrite !classify_risk_float. unfold risk_level_of.
  split; [|split; [|split; [|split]]].
  - intros _ Hlt. destruct (low_band _ Hlt) as [-> ->]. reflexivity.
  - intros Hge Hlt. rewrite (medium_band _ Hlt), Hge. reflexivity.
  - intros -> _. reflexivity.
  - reflexivity.
  - reflexivity.
Qed.

(** ** C6 *)

(** C6, as stated, fails: the score 1.5 lies above 1 and is classified
    High Risk, so a score outside [0,1] is not rejected. *)
Lemma out_of_range_score_is_classified :
  Float.lt Float.lit_1_0 Float.lit_1_5 = true /\
  classify_risk (VFloat Float.lit_1_5) = Ok ("risk-high", "High Risk") /\
  ~ (forall f : spec_float,
       Float.lt f Float.lit_0_0 = true \/ Float.lt Float.lit_1_0 f = true ->
       exists e, classify_risk (VFloat f) = Raise e).
Proof.
  split; [reflexivity|]. split; [reflexivity|].
  intros Hreject.
  destruct (Hreject Float.lit_1_5) as [e He]; [right; reflexivity|].
  discriminate He.
Qed.

(** C6, amended. The risk level is a pure function of the score that never
    rejects a float: every float score gets a level and nothing is logged;
    a score above 1 is High Risk and a score below 0 is Low Risk. *)
Theorem risk_level_never_rejects (risk_score : spec_float) :
  classify_risk (VFloat risk_score) = Ok (risk_level_of risk_score) /\
  (forall e, classify_risk (VFloat risk_score) <> Raise e) /\
  (Float.lt Float.lit_1_0 risk_score = true ->
   classify_risk (VFloat risk_score) = Ok ("risk-high", "High Risk")) /\
  (Float.lt risk_score Float.lit_0_0 = true ->
   classify_risk (VFloat risk_score) = Ok ("risk-low", "Low Risk")).
Proof.
  rewrite !classify_risk_float. unfold risk_level_of.
  split; [reflexivity|]. split; [discriminate|]. split.
  - intros Hgt. rewrite (above_one _ Hgt). reflexivity.
  - intros Hlt. destruct (below_zero _ Hlt) as [-> ->]. reflexivity.
Qed.

(** ** The log of the recommendation loop *)

Section Display.

Variable repr : pyval -> string.
Variable ml_models : option ml_module.

Lemma for_each_numbered (items : list pyval) (n : Z) :
  for_each (enumerate items n)
    (fun '(i, rec) => st.write (pretty i +:+ ". " +:+ py_str repr rec))
  = (Ok tt, StWrite <$> numbered repr items n).
Proof.
  revert n. induction items as [|item rest IH]; intros n; cbn.
  - reflexivity.
  - rewrite IH. reflexivity.
Qed.

Lemma numbered_length (items : list pyval) (n : Z) :
  length (numbered repr items n) = length items.
Proof.
  revert n. induction items as [|item rest IH]; intros n; cbn; [reflexivity|].
  f_equal. apply IH.
Qed.

Lemma numbered_lookup (items : list pyval) (n : Z) (i : nat) (item : pyval) :
  items !! i = Some item ->
  numbered repr items n !! i
  = Some (pretty (n + Z.of_nat i) +:+ ". " +:+ py_str repr item).
Proof.
  revert n i. induction items as [|x rest IH]; intros n i Hi.
  - discriminate Hi.
  - destruct i as [|i].
    + injection Hi as ->. cbn. rewrite Z.add_0_r. reflexivity.
    + transitivity (Some (pretty (n + 1 + Z.of_nat i) +:+ ". " +:+ py_str repr item)).
      * exact (IH (n + 1) i Hi).
      * do 3 f_equal. lia.
Qed.

Lemma display_recommendations_items (result : dict) (items : list pyval) :
  py_iter (dict_get result "recommendations" (VList [])) = Ok items ->
  display_recommendations repr result
  = (Ok tt, StSubheader "📋 Personalized Recommendations"
            :: (StWrite <$> numbered repr items 1)).
Proof.
  intros Hiter. unfold display_recommendations. cbn.
  rewrite Hiter. cbn. rewrite for_each_numbered. reflexivity.
Qed.

Lemma display_recommendations_raise (result : dict) (e : exception) :
  py_iter (dict_get result "recommendations" (VList [])) = Raise e ->
  display_recommendations repr result
  = (Raise e, [StSubheader "📋 Personalized Recommendations"]).
Proof.
  intros Hiter. unfold display_recommendations. cbn.
  rewrite Hiter. reflexivity.
Qed.

(** ** C2 *)

(** C2. The recommendation lines are numbered from 1 and follow the order
    of the list the predictor returned, one line per list entry: the entry
    at (0-based) position [i] is written as line [i + 1], and the list
    [A, B] is written as the lines [1. A] and [2. B]. *)
Theorem recommendations_numbered_in_order (result : dict) (recs : list string) :
  result !! "recommendations" = Some (VList (VStr <$> recs)) ->
  exists lines : list string,
    display_recommendations repr result
    = (Ok tt, StSubheader "📋 Personalized Recommendations" :: (StWrite <$> lines)) /\
    length lines = length recs /\
    (forall (i : nat) (rec : string),
        recs !! i = Some rec ->
        lines !! i = Some (pretty (Z.of_nat i + 1) +:+ ". " +:+ rec)) /\
    (recs = ["A"; "B"] -> lines = ["1. A"; "2. B"]).
Proof.
  intros Hrecs. exists (numbered repr (VStr <$> recs) 1).
  split; [|split; [|split]].
  - apply display_recommendations_items.
    unfold dict_get. rewrite Hrecs. reflexivity.
  - rewrite numbered_length, length_fmap. reflexivity.
  - intros i rec Hi.
    rewrite (numbered_lookup _ 1 i (VStr rec)).
    + rewrite Z.add_comm. reflexivity.
    + rewrite list_lookup_fmap, Hi. reflexivity.
  - intros ->. reflexivity.
Qed.

End Display.

(** ** The [try] block of the prediction tab *)

#[local] Arguments display_recommendations : simpl never.
#[local] Arguments classify_risk : simpl never.

Section Prediction.

Variable repr : pyval -> string.
Variable ml_models : option ml_module.

Lemma predict_diabetes_cases (data : patient_data) :
  predict_diabetes ml_models data
  = match ml_models with
    | Some m => (ml_predict_diabetes m data, [CallPredictDiabetes data])
    | None => (Raise (NameError "predict_diabetes"), [])
    end.
Proof.
  unfold predict_diabetes. destruct ml_models as [m|]; [|reflexivity].
  cbn. destruct (ml_predict_diabetes m data); reflexivity.
Qed.

Lemma predict_and_display_factor (data : patient_data) :
  predict_and_display repr ml_models data
  = (result ← predict_diabetes ml_models data;
     card ← lift (card_of repr result);
     st.markdown card ;; display_recommendations repr result).
Proof.
  unfold predict_and_display, card_of.
  destruct (predict_diabetes ml_models data) as [[result|e] t]; cbn; [|reflexivity].
  destruct (getitem result "prediction") as [prediction|e]; cbn; [|reflexivity].
  destruct (getitem result "confidence") as [confidence|e]; cbn; [|reflexivity].
  destruct (getitem result "risk_score") as [risk_score|e]; cbn; [|reflexivity].
  destruct (classify_risk risk_score) as [[risk_class risk_level]|e]; cbn; [|reflexivity].
  destruct (format_percent confidence) as [confidence_field|e]; cbn; [|reflexivity].
  destruct (format_percent risk_score) as [risk_score_field|e]; cbn; [|reflexivity].
  destruct (display_recommendations repr result) as [[[]|e] t'];
    rewrite ?app_nil_r; reflexivity.
Qed.

Lemma card_of_typed (result : dict) (p : pyval) (c r : spec_float) :
  result !! "prediction" = Some p ->
  result !! "confidence" = Some (VFloat c) ->
  result !! "risk_score" = Some (VFloat r) ->
  card_of repr result
  = Ok (prediction_card (fst (risk_level_of r)) (py_str repr p) (snd (risk_level_of r))
          (Float.format_1pct c) (Float.format_1pct r)).
Proof.
  intros Hp Hc Hr. unfold card_of, getitem. rewrite Hp, Hc, Hr. cbn.
  rewrite classify_risk_float. cbn. destruct (risk_level_of r). reflexivity.
Qed.


Lemma try_block_call_raises (data : patient_data) (e : exception) (t : list event) :
  predict_diabetes ml_models data = (Raise e, t) ->
  try_block repr ml_models data = (Ok tt, t ++ error_notice e).
Proof.
  intros Hcall. unfold try_block. rewrite predict_and_display_factor, Hcall.
  reflexivity.
Qed.

Lemma try_block_card_raises
    (data : patient_data) (result : dict) (e : exception) (t : list event) :
  predict_diabetes ml_models data = (Ok result, t) ->
  card_of repr result = Raise e ->
  try_block repr ml_models data = (Ok tt, t ++ error_notice e).
Proof.
  intros Hcall Hcard. unfold try_block.
  rewrite predict_and_display_factor, Hcall. cbn. rewrite Hcard. cbn.
  rewrite app_nil_r. reflexivity.
Qed.

Lemma try_block_complete
    (data : patient_data) (result : dict) (card : string) (items : list pyval)
    (t : list event) :
  predict_diabetes ml_models data = (Ok result, t) ->
  card_of repr result = Ok card ->
  py_iter (dict_get result "recommendations" (VList [])) = Ok items ->
  try_block repr ml_models data
  = (Ok tt, t ++ StMarkdown card :: StSubheader "📋 Personalized Recommendations"
                 :: (StWrite <$> numbered repr items 1)).
Proof.
  intros Hcall Hcard Hiter. unfold try_block.
  rewrite predict_and_display_factor, Hcall. cbn. rewrite Hcard. cbn.
  rewrite (display_recommendations_items repr result items Hiter). reflexivity.
Qed.

Lemma try_block_loop_raises
    (data : patient_data) (result : dict) (card : string) (e : exception)
    (t : list event) :
  predict_diabetes ml_models data = (Ok result, t) ->
  card_of repr result = Ok card ->
  py_iter (dict_get result "recommendations" (VList [])) = Raise e ->
  try_block repr ml_models data
  = (Ok tt, t ++ [StMarkdown card; StSubheader "📋 Personalized Recommendations"]
               ++ error_notice e).
Proof.
  intros Hcall Hcard Hiter. unfold try_block.
  rewrite predict_and_display_factor, Hcall. cbn. rewrite Hcard. cbn.
  rewrite (display_recommendations_raise repr result e Hiter). cbn.
  rewrite <- app_assoc. reflexivity.
Qed.

Lemma render_pressed (w : predictor_widgets) :
  w_predict_button w = true ->
  returned (render_diabetes_predictor repr ml_models w)
  = returned (try_block repr ml_models (prepare_patient_data w)) /\
  log (render_diabetes_predictor repr ml_models w)
  = predictor_form ++ predictor_spinner
    ++ log (try_block repr ml_models (prepare_patient_data w)).
Proof.
  intros Hpressed. unfold render_diabetes_predictor. rewrite Hpressed.
  destruct (try_block repr ml_models (prepare_patient_data w)) as [[[]|e] t];
    split; reflexivity.
Qed.

Lemma render_idle (w : predictor_widgets) :
  w_predict_button w = false ->
  render_diabetes_predictor repr ml_models w = (Ok tt, predictor_form).
Proof.
  intros Hidle. unfold render_diabetes_predictor. rewrite Hidle. reflexivity.
Qed.

End Prediction.

(** ** What reaches the page, and which calls are made *)

Lemma shown_app (a b : list event) : shown (a ++ b) = shown a ++ shown b.
Proof. apply List.filter_app. Qed.

Lemma shown_writes (lines : list string) : shown (StWrite <$> lines) = StWrite <$> lines.
Proof. induction lines as [|l ls IH]; cbn; [reflexivity|]. f_equal. exact IH. Qed.

Lemma predictor_calls_app (a b : list event) :
  predictor_calls (a ++ b) = predictor_calls a ++ predictor_calls b.
Proof. apply omap_app. Qed.

Lemma predictor_calls_writes (lines : list string) :
  predictor_calls (StWrite <$> lines) = [].
Proof. induction lines as [|l ls IH]; cbn; [reflexivity|]. exact IH. Qed.

Section Claims.

Variable repr : pyval -> string.
Variable ml_models : option ml_module.


Lemma predictor_calls_predict_diabetes (data : patient_data) :
  predictor_calls (log (predict_diabetes ml_models data))
  = match ml_models with Some _ => [data] | None => [] end.
Proof. rewrite predict_diabetes_cases. destruct ml_models; reflexivity. Qed.

(** Whatever the predictor answers, the [try] block ends normally and calls
    the predictor once, when there is one. *)
Lemma try_block_calls (data : patient_data) :
  returned (try_block repr ml_models data) = Ok tt /\
  predictor_calls (log (try_block repr ml_models data))
  = match ml_models with Some _ => [data] | None => [] end.
Proof.
  rewrite <- predictor_calls_predict_diabetes.
  destruct (predict_diabetes ml_models data) as [[result|e] t] eqn:Hcall.
  - destruct (card_of repr result) as [card|e] eqn:Hcard.
    + destruct (py_iter (dict_get result "recommendations" (VList []))) as [items|e] eqn:Hiter.
      * rewrite (try_block_complete _ _ _ _ _ _ _ Hcall Hcard Hiter).
        split; [reflexivity|]. cbn.
        rewrite predictor_calls_app. cbn. rewrite predictor_calls_writes.
        apply app_nil_r.
      * rewrite (try_block_loop_raises _ _ _ _ _ _ _ Hcall Hcard Hiter).
        split; [reflexivity|]. cbn.
        rewrite predictor_calls_app. cbn. apply app_nil_r.
    + rewrite (try_block_card_raises _ _ _ _ _ _ Hcall Hcard).
      split; [reflexivity|]. cbn.
      rewrite predictor_calls_app. cbn. apply app_nil_r.
  - rewrite (try_block_call_raises _ _ _ _ _ Hcall).
    split; [reflexivity|]. cbn.
    rewrite predictor_calls_app. cbn. apply app_nil_r.
Qed.

(** ** C4 *)


(** ** C5 *)


(** Outside that condition the card can be followed by the error notice:
    with [None] for the recommendations, the loop raises after the card and
    the heading were sent. *)
Lemma card_then_error_when_not_iterable (w : predictor_widgets) (m : ml_module)
    (result : dict) (p : pyval) (c r : spec_float) :
  w_predict_button w = true ->
  ml_models = Some m ->
  ml_predict_diabetes m (prepare_patient_data w) = Ok result ->
  result !! "prediction" = Some p ->
  result !! "confidence" = Some (VFloat c) ->
  result !! "risk_score" = Some (VFloat r) ->
  result !! "recommendations" = Some VNone ->
  shown (log (render_diabetes_predictor repr ml_models w))
  = predictor_form ++ predictor_spinner
    ++ display_bundle repr p c r []
    ++ error_notice (TypeError "'NoneType' object is not iterable").
Proof.
  intros Hpressed Hmodule Hanswer Hp Hc Hr Hrecs.
  destruct (render_pressed repr ml_models w Hpressed) as [_ ->].
  assert (predict_diabetes ml_models (prepare_patient_data w)
          = (Ok result, [CallPredictDiabetes (prepare_patient_data w)])) as Hcall.
  { rewrite predict_diabetes_cases, Hmodule, Hanswer. reflexivity. }
  rewrite (try_block_loop_raises _ _ _ _ _ (TypeError "'NoneType' object is not iterable") _
             Hcall (card_of_typed repr _ _ _ _ Hp Hc Hr)).
  - reflexivity.
  - unfold dict_get. rewrite Hrecs. reflexivity.
Qed.

(** ** C9 *)

(** C9. When the predictor's answer has no recommendations field (and its
    other three fields are as the data model has them), the list defaults
    to the empty one: the card and the heading are shown, no numbered line
    follows, and no error is raised or shown. *)
Theorem missing_recommendations_default
    (w : predictor_widgets) (m : ml_module) (result : dict)
    (p : pyval) (c r : spec_float) :
  w_predict_button w = true ->
  ml_models = Some m ->
  ml_predict_diabetes m (prepare_patient_data w) = Ok result ->
  result !! "prediction" = Some p ->
  result !! "confidence" = Some (VFloat c) ->
  result !! "risk_score" = Some (VFloat r) ->
  result !! "recommendations" = None ->
  render_diabetes_predictor repr ml_models w
  = (Ok tt,
     predictor_form ++ predictor_spinner
     ++ [ CallPredictDiabetes (prepare_patient_data w);
          StMarkdown (prediction_card (fst (risk_level_of r)) (py_str repr p)
                        (snd (risk_level_of r))
                        (Float.format_1pct c) (Float.format_1pct r));
          StSubheader "📋 Personalized Recommendations" ]).
Proof.
  intros Hpressed Hmodule Hanswer Hp Hc Hr Hrecs.
  assert (predict_diabetes ml_models (prepare_patient_data w)
          = (Ok result, [CallPredictDiabetes (prepare_patient_data w)])) as Hcall.
  { rewrite predict_diabetes_cases, Hmodule, Hanswer. reflexivity. }
  assert (py_iter (dict_get result "recommendations" (VList [])) = Ok []) as Hiter.
  { unfold dict_get. rewrite Hrecs. reflexivity. }
  pose proof (try_block_complete repr ml_models _ _ _ _ _
                Hcall (card_of_typed repr _ _ _ _ Hp Hc Hr) Hiter) as Hblock.
  destruct (render_pressed repr ml_models w Hpressed) as [Hret Hlog].
  rewrite Hblock in Hret, Hlog.
  destruct (render_diabetes_predictor repr ml_models w) as [ret tr].
  unfold returned, log in *. cbn [fst snd] in *. subst ret tr. reflexivity.
Qed.

(** ** C10 *)

(** C10. Every patient record passed to the predictor has [family_history]
    equal to 1 when the selection is ["Yes"] and to 0 for any other state of
    the widget. *)
Theorem family_history_is_flag (w : predictor_widgets) (data : patient_data) :
  In data (predictor_calls (log (render_diabetes_predictor repr ml_models w))) ->
  (w_family_history w = "Yes" -> family_history data = 1) /\
  (w_family_history w <> "Yes" -> family_history data = 0) /\
  (family_history data = 0 \/ family_history data = 1).
Proof.
  intros Hcalled.
  assert (data = prepare_patient_data w) as ->.
  { destruct (w_predict_button w) eqn:Hbutton.
    - destruct (render_pressed repr ml_models w Hbutton) as [_ Hlog].
      rewrite Hlog, !predictor_calls_app in Hcalled.
      rewrite (proj2 (try_block_calls (prepare_patient_data w))) in Hcalled.
      cbn in Hcalled. destruct ml_models; cbn in Hcalled.
      + destruct Hcalled as [<-|[]]. reflexivity.
      + destruct Hcalled.
    - rewrite (render_idle repr ml_models w Hbutton) in Hcalled. destruct Hcalled. }
  cbn. destruct (String.eqb_spec (w_family_history w) "Yes") as [Hyes|Hno].
  - split; [reflexivity|]. split; [contradiction|]. right. reflexivity.
  - split; [contradiction|]. split; [reflexivity|]. left. reflexivity.
Qed.

(** ** C8 *)

Lemma create_sample_patient_data_cases :
  create_sample_patient_data ml_models
  = match ml_models with
    | Some m => (ml_create_sample_patient_data m, [CallCreateSamplePatientData])
    | None => (Raise (NameError "create_sample_patient_data"), [])
    end.
Proof.
  unfold create_sample_patient_data. destruct ml_models as [m|]; [|reflexivity].
  cbn. destruct (ml_create_sample_patient_data m); reflexivity.
Qed.

(** C8. When the sample-record generator fails, whatever the failure, the
    sidebar shows the notice "Sample data not available" and nothing else
    below its statistics: no sample record is displayed, and the sidebar
    returns the selected page without raising. *)
Theorem sample_failure_is_silent (page : string) (e : exception) :
  returned (create_sample_patient_data ml_models) = Raise e ->
  let run := render_sidebar ml_models page true in
  returned run = Ok page /\
  shown (log run) = sidebar_head ++ [StError "Sample data not available"] /\
  List.filter is_json (log run) = [].
Proof.
  intros Hfails run. subst run. unfold render_sidebar.
  rewrite create_sample_patient_data_cases in *.
  destruct ml_models as [m|]; cbn in Hfails.
  - rewrite Hfails. repeat split; reflexivity.
  - repeat split; reflexivity.
Qed.

End Claims.

(** ** C7 *)

(** C7. The analysis shown for an uploaded file is the same hard-coded
    summary whatever the file: two uploads give the same analysis output,
    which is the fixed summary once the button is pressed, and the whole
    page depends on the file through its name only, never its content. *)
Theorem analysis_is_static (file1 file2 : uploaded_file) (analyze_button : bool) :
  analysis_output (log (render_document_analyzer (Some file1) analyze_button))
  = analysis_output (log (render_document_analyzer (Some file2) analyze_button)) /\
  analysis_output (log (render_document_analyzer (Some file1) true))
  = [analysis_summary] /\
  (file_name file1 = file_name file2 ->
   render_document_analyzer (Some file1) analyze_button
   = render_document_analyzer (Some file2) analyze_button).
Proof.
  split; [|split].
  - destruct analyze_button; reflexivity.
  - reflexivity.
  - intros Hname. unfold render_document_analyzer. rewrite Hname. reflexivity.
Qed.

(** ** The hundredfold of a value of the unit interval is finite *)

Lemma digits2_pos_bounds (p : positive) :
  2 ^ (Z.pos (digits2_pos p) - 1) <= Z.pos p < 2 ^ Z.pos (digits2_pos p).
Proof.
  induction p as [p IH|p IH|]; cbn [digits2_pos].
  - rewrite Pos2Z.inj_succ. change (Z.pos p~1) with (2 * Z.pos p + 1).
    replace (Z.succ (Z.pos (digits2_pos p)) - 1) with (Z.succ (Z.pos (digits2_pos p) - 1)) by lia.
    rewrite !Z.pow_succ_r by lia. lia.
  - rewrite Pos2Z.inj_succ. change (Z.pos p~0) with (2 * Z.pos p).
    replace (Z.succ (Z.pos (digits2_pos p)) - 1) with (Z.succ (Z.pos (digits2_pos p) - 1)) by lia.
    rewrite !Z.pow_succ_r by lia. lia.
  - cbn. lia.
Qed.

Lemma Zdigits2_le (m k : Z) : 0 <= m < 2 ^ k -> 0 <= k -> Zdigits2 m <= k.
Proof.
  intros [Hlo Hhi] Hk. destruct m as [|p|p]; cbn; [lia| |lia].
  pose proof (digits2_pos_bounds p) as [Hp _].
  destruct (Z.le_gt_cases (Z.pos (digits2_pos p)) k) as [|Hgt]; [assumption|exfalso].
  assert (2 ^ k <= 2 ^ (Z.pos (digits2_pos p) - 1)) by (apply Z.pow_le_mono_r; lia).
  lia.
Qed.

Lemma shr_1_bounds (mrs : shr_record) :
  0 <= shr_m mrs -> 0 <= shr_m (shr_1 mrs) <= shr_m mrs.
Proof.
  destruct mrs as [m r s]. cbn [shr_m]. intros Hm.
  destruct m as [|[p|p|]|p]; cbn; lia.
Qed.

Lemma iter_shr_1_bounds (n : positive) (mrs : shr_record) :
  0 <= shr_m mrs -> 0 <= shr_m (SpecFloat.iter_pos shr_1 n mrs) <= shr_m mrs.
Proof.
  revert mrs. induction n as [n IH|n IH|]; intros mrs Hm; cbn [SpecFloat.iter_pos].
  - pose proof (shr_1_bounds mrs Hm) as H1.
    pose proof (IH (shr_1 mrs) (proj1 H1)) as H2.
    pose proof (IH _ (proj1 H2)) as H3. lia.
  - pose proof (IH mrs Hm) as H2.
    pose proof (IH _ (proj1 H2)) as H3. lia.
  - apply shr_1_bounds, Hm.
Qed.

Lemma shr_fexp_bounds (m e : Z) (l : location) :
  0 <= m ->
  0 <= shr_m (fst (shr_fexp Float.prec Float.emax m e l)) <= m /\
  snd (shr_fexp Float.prec Float.emax m e l)
  = Z.max e (fexp Float.prec Float.emax (Zdigits2 m + e)).
Proof.
  intros Hm. unfold shr_fexp, shr.
  assert (shr_m (shr_record_of_loc m l) = m) as Hrec by (destruct l as [|[]]; reflexivity).
  destruct (fexp Float.prec Float.emax (Zdigits2 m + e) - e) as [|n|n] eqn:Hn; cbn [fst snd].
  - rewrite Hrec. lia.
  - pose proof (iter_shr_1_bounds n (shr_record_of_loc m l)) as Hiter.
    rewrite Hrec in Hiter. split; [apply Hiter, Hm|lia].
  - rewrite Hrec. lia.
Qed.

Lemma round_nearest_even_bounds (m : Z) (l : location) :
  m <= round_nearest_even m l <= m + 1.
Proof. destruct l as [|[]]; cbn; try destruct (Z.even m); lia. Qed.

Lemma binary_round_aux_finite (s : bool) (m e : Z) :
  0 <= m < 2 ^ 106 -> e <= 864 ->
  Float.is_finite (binary_round_aux Float.prec Float.emax s m e loc_Exact) = true.
Proof.
  intros Hm He. unfold binary_round_aux.
  pose proof (shr_fexp_bounds m e loc_Exact (proj1 Hm)) as [Hm1 He1].
  destruct (shr_fexp Float.prec Float.emax m e loc_Exact) as [mrs1 e1].
  cbn [fst snd] in *.
  set (m2 := round_nearest_even (shr_m mrs1) (loc_of_shr_record mrs1)).
  pose proof (round_nearest_even_bounds (shr_m mrs1) (loc_of_shr_record mrs1)) as Hm2.
  fold m2 in Hm2.
  assert (0 <= m2) as Hm2pos by lia.
  pose proof (shr_fexp_bounds m2 e1 loc_Exact Hm2pos) as [Hm3 He2].
  destruct (shr_fexp Float.prec Float.emax m2 e1 loc_Exact) as [mrs2 e2].
  cbn [fst snd] in *.
  assert (Zdigits2 m <= 106) as Hd1 by (apply Zdigits2_le; lia).
  assert (Zdigits2 m2 <= 107) as Hd2.
  { apply Zdigits2_le; [|lia]. change (2 ^ 107) with (2 * 2 ^ 106). lia. }
  unfold fexp, emin, Float.prec, Float.emax in *.
  destruct (shr_m mrs2) as [|p|p]; [reflexivity| |lia].
  destruct (e2 <=? 1024 - 53) eqn:Hle; [reflexivity|].
  apply Z.leb_gt in Hle. lia.
Qed.

Lemma unit_interval_shape (x : spec_float) :
  valid_binary Float.prec Float.emax x = true ->
  Float.ge x Float.lit_0_0 = true ->
  Float.le x Float.lit_1_0 = true ->
  (exists s, x = S754_zero s) \/
  (exists m e, x = S754_finite false m e /\ Z.pos m < 2 ^ 53 /\ e <= -52).
Proof.
  intros Hvalid Hge Hle.
  destruct x as [s|s| |s m e]; 
    [left; exists s; reflexivity | destruct s; discriminate | discriminate | ].
  right. destruct s; [discriminate Hge|]. exists m, e.
  split; [reflexivity|].
  cbn in Hvalid. apply andb_prop in Hvalid as [Hcanonical _].
  unfold canonical_mantissa, fexp, emin, Float.prec, Float.emax in Hcanonical.
  apply Z.eqb_eq in Hcanonical.
  pose proof (digits2_pos_bounds m) as [_ Hm].
  assert (2 ^ Z.pos (digits2_pos m) <= 2 ^ 53) by (apply Z.pow_le_mono_r; lia).
  split; [lia|].
  revert Hle. float_unfold. cbn [SFcompare]. compare_cases; intros; first [discriminate | lia].
Qed.

Lemma mul_100_is_finite (x : spec_float) :
  valid_binary Float.prec Float.emax x = true ->
  Float.ge x Float.lit_0_0 = true ->
  Float.le x Float.lit_1_0 = true ->
  Float.is_finite (Float.mul x Float.lit_100) = true.
Proof.
  intros Hvalid Hge Hle.
  destruct (unit_interval_shape x Hvalid Hge Hle) as [[s ->]|(m & e & -> & Hm & He)];
    [reflexivity|].
  unfold Float.mul, Float.lit_100. cbn [SFmul xorb].
  apply binary_round_aux_finite; [|lia].
  rewrite Pos2Z.inj_mul. change (2 ^ 106) with (2 ^ 53 * 2 ^ 53).
  split; [lia|]. apply Z.mul_lt_mono_nonneg; [lia|exact Hm|lia|reflexivity].
Qed.

(** ** The digits printed for a finite float *)

Lemma round_half_even_nearest (n d : Z) :
  0 <= n -> 0 < d ->
  0 <= Float.round_half_even n d /\
  2 * Z.abs (Float.round_half_even n d * d - n) <= d.
Proof.
  intros Hn Hd. unfold Float.round_half_even.
  pose proof (Z.div_mod n d ltac:(lia)) as Hdiv.
  pose proof (Z.mod_pos_bound n d Hd) as Hmod.
  pose proof (Z.div_pos n d Hn Hd) as Hquot.
  set (q := n / d) in *. set (r := n mod d) in *.
  assert (q * d = d * q) as Hcomm by apply Z.mul_comm.
  destruct (2 * r <? d) eqn:Hlow; [apply Z.ltb_lt in Hlow; lia|].
  apply Z.ltb_ge in Hlow.
  destruct (d <? 2 * r) eqn:Hhigh; [apply Z.ltb_lt in Hhigh; lia|].
  apply Z.ltb_ge in Hhigh.
  destruct (Z.even q); lia.
Qed.

Lemma tenths_nearest (s : bool) (m : positive) (e : Z) :
  0 <= Float.tenths m e /\ nearest_tenths (S754_finite s m e) (Float.tenths m e).
Proof.
  unfold Float.tenths, nearest_tenths.
  destruct (0 <=? e) eqn:He.
  - apply Z.leb_le in He. split; [|reflexivity].
    pose proof (Z.pow_nonneg 2 e ltac:(lia)). lia.
  - apply Z.leb_gt in He.
    assert (0 < 2 ^ (- e)) as Hpow by (apply Z.pow_pos_nonneg; lia).
    apply round_half_even_nearest; lia.
Qed.

Lemma string_app_assoc (a b c : string) : (a +:+ b) +:+ c = a +:+ (b +:+ c).
Proof.
  induction a as [|ch a IH]; [reflexivity|].
  change (String ch ((a +:+ b) +:+ c) = String ch (a +:+ (b +:+ c))).
  f_equal. exact IH.
Qed.

Lemma pretty_digit (d : Z) : 0 <= d <= 9 -> String.length (pretty d) = 1%nat.
Proof.
  intros Hd.
  assert (d = 0 \/ d = 1 \/ d = 2 \/ d = 3 \/ d = 4 \/ d = 5 \/ d = 6 \/ d = 7
          \/ d = 8 \/ d = 9) as Hcases by lia.
  repeat destruct Hcases as [->|Hcases]; try subst d; reflexivity.
Qed.

Lemma format_1f_shape (y : spec_float) :
  Float.is_finite y = true ->
  exists (s : bool) (n d : Z),
    0 <= n /\ 0 <= d <= 9 /\
    Float.format_1f y = Float.sign_str s +:+ pretty n +:+ "." +:+ pretty d /\
    nearest_tenths y (10 * n + d).
Proof.
  destruct y as [s|s| |s m e]; try discriminate; intros _.
  - exists s, 0, 0. split; [lia|]. split; [lia|]. split; reflexivity.
  - destruct (tenths_nearest s m e) as [Hpos Hnear].
    exists s, (Float.tenths m e / 10), (Float.tenths m e mod 10).
    pose proof (Z.mod_pos_bound (Float.tenths m e) 10 ltac:(lia)).
    pose proof (Z.div_pos (Float.tenths m e) 10 Hpos ltac:(lia)).
    split; [lia|]. split; [lia|]. split; [reflexivity|].
    rewrite <- Z.div_mod by lia. exact Hnear.
Qed.

(** ** C3 *)

(** C3. Confidence and risk score are formatted as percentages with one
    decimal place: for every binary64 value in [0,1] the field is the
    integer part, a point, exactly one digit and the percent sign, the
    digits being a nearest tenth of the hundredfold value; 0.841 gives
    84.1%, 1.0 gives 100.0% and 0.0 gives 0.0%. *)
Theorem percent_has_one_decimal :
  (forall x : spec_float,
      valid_binary Float.prec Float.emax x = true ->
      Float.ge x Float.lit_0_0 = true ->
      Float.le x Float.lit_1_0 = true ->
      exists (s : bool) (n d : Z),
        0 <= n /\ 0 <= d <= 9 /\ String.length (pretty d) = 1%nat /\
        format_percent (VFloat x)
        = Ok (Float.sign_str s +:+ pretty n +:+ "." +:+ pretty d +:+ "%") /\
        nearest_tenths (Float.mul x Float.lit_100) (10 * n + d)) /\
  format_percent (VFloat Float.lit_0_841) = Ok "84.1%" /\
  format_percent (VFloat Float.lit_1_0) = Ok "100.0%" /\
  format_percent (VFloat Float.lit_0_0) = Ok "0.0%".
Proof.
  split; [|repeat split; vm_compute; reflexivity].
  intros x Hvalid Hge Hle.
  destruct (format_1f_shape _ (mul_100_is_finite x Hvalid Hge Hle))
    as (s & n & d & Hn & Hd & Hshape & Hnear).
  exists s, n, d. split; [exact Hn|]. split; [exact Hd|].
  split; [apply pretty_digit, Hd|]. split; [|exact Hnear].
  cbn [format_percent]. unfold Float.format_1pct. rewrite Hshape.
  rewrite !string_app_assoc. reflexivity.
Qed.

(** * Further properties of the script *)

(** ** The prediction tab, whatever the predictor answers *)

Lemma errors_of_writes (lines : list string) : errors_of (StWrite <$> lines) = [].
Proof. induction lines as [|l ls IH]; [reflexivity|exact IH]. Qed.

Section PredictionTab.

Variable repr : pyval -> string.
Variable ml_models : option ml_module.

Lemma predict_diabetes_answers
    (m : ml_module) (data : patient_data) (result : dict) :
  ml_models = Some m ->
  ml_predict_diabetes m data = Ok result ->
  predict_diabetes ml_models data = (Ok result, [CallPredictDiabetes data]).
Proof.
  intros Hmodule Hanswer. rewrite predict_diabetes_cases, Hmodule, Hanswer.
  reflexivity.
Qed.

Lemma shown_render_pressed (w : predictor_widgets) :
  w_predict_button w = true ->
  shown (log (render_diabetes_predictor repr ml_models w))
  = predictor_form ++ predictor_spinner
    ++ shown (log (try_block repr ml_models (prepare_patient_data w))).
Proof.
  intros Hpressed.
  destruct (render_pressed repr ml_models w Hpressed) as [_ ->].
  rewrite !shown_app. reflexivity.
Qed.

(** When the card cannot be built, the page shows the error notice of the
    exception and nothing else below the form. *)
Lemma shown_card_raises
    (w : predictor_widgets) (m : ml_module) (result : dict) (e : exception) :
  w_predict_button w = true ->
  ml_models = Some m ->
  ml_predict_diabetes m (prepare_patient_data w) = Ok result ->
  card_of repr result = Raise e ->
  shown (log (render_diabetes_predictor repr ml_models w))
  = predictor_form ++ predictor_spinner ++ error_notice e.
Proof.
  intros Hpressed Hmodule Hanswer Hcard.
  rewrite (shown_render_pressed w Hpressed).
  rewrite (try_block_card_raises repr ml_models _ _ _ _
             (predict_diabetes_answers m _ result Hmodule Hanswer) Hcard).
  reflexivity.
Qed.

Lemma render_diabetes_predictor_returns (w : predictor_widgets) :
  returned (render_diabetes_predictor repr ml_models w) = Ok tt.
Proof.
  destruct (w_predict_button w) eqn:Hbutton.
  - destruct (render_pressed repr ml_models w Hbutton) as [-> _].
    apply try_block_calls.
  - rewrite (render_idle repr ml_models w Hbutton). reflexivity.
Qed.

Lemma predictor_calls_render (w : predictor_widgets) :
  predictor_calls (log (render_diabetes_predictor repr ml_models w))
  = (if w_predict_button w
     then match ml_models with Some _ => [prepare_patient_data w] | None => [] end
     else []).
Proof.
  destruct (w_predict_button w) eqn:Hbutton.
  - destruct (render_pressed repr ml_models w Hbutton) as [_ ->].
    rewrite !predictor_calls_app.
    rewrite (proj2 (try_block_calls repr ml_models (prepare_patient_data w))).
    reflexivity.
  - rewrite (render_idle repr ml_models w Hbutton). reflexivity.
Qed.


(** X2. A missing field of the answer is reported by its name, in the order
    the fields are read (prediction, confidence, risk_score), and nothing of
    the bundle is shown. *)
Theorem missing_field_reported
    (w : predictor_widgets) (m : ml_module) (result : dict) :
  w_predict_button w = true ->
  ml_models = Some m ->
  ml_predict_diabetes m (prepare_patient_data w) = Ok result ->
  let page := shown (log (render_diabetes_predictor repr ml_models w)) in
  (result !! "prediction" = None ->
   page = predictor_form ++ predictor_spinner ++ error_notice (KeyError "prediction")) /\
  (is_Some (result !! "prediction") ->
   result !! "confidence" = None ->
   page = predictor_form ++ predictor_spinner ++ error_notice (KeyError "confidence")) /\
  (is_Some (result !! "prediction") ->
   is_Some (result !! "confidence") ->
   result !! "risk_score" = None ->
   page = predictor_form ++ predictor_spinner ++ error_notice (KeyError "risk_score")).
Proof.
  intros Hpressed Hmodule Hanswer page. subst page.
  split; [|split].
  - intros Hp. apply (shown_card_raises w m result _ Hpressed Hmodule Hanswer).
    unfold card_of, getitem. rewrite Hp. reflexivity.
  - intros [p Hp] Hc. apply (shown_card_raises w m result _ Hpressed Hmodule Hanswer).
    unfold card_of, getitem. rewrite Hp, Hc. reflexivity.
  - intros [p Hp] [c Hc] Hr.
    apply (shown_card_raises w m result _ Hpressed Hmodule Hanswer).
    unfold card_of, getitem. rewrite Hp, Hc, Hr. reflexivity.
Qed.

(** X3. A risk score that is not a float makes the comparison with 0.7
    raise: the page shows the TypeError naming the type and no card,
    whatever the confidence is. *)
Theorem non_float_risk_score_reported
    (w : predictor_widgets) (m : ml_module) (result : dict) (p c v : pyval) :
  w_predict_button w = true ->
  ml_models = Some m ->
  ml_predict_diabetes m (prepare_patient_data w) = Ok result ->
  result !! "prediction" = Some p ->
  result !! "confidence" = Some c ->
  result !! "risk_score" = Some v ->
  (forall f, v <> VFloat f) ->
  shown (log (render_diabetes_predictor repr ml_models w))
  = predictor_form ++ predictor_spinner
    ++ error_notice (TypeError ("'>=' not supported between instances of '"
                                +:+ type_name v +:+ "' and 'float'")).
Proof.
  intros Hpressed Hmodule Hanswer Hp Hc Hr Hv.
  apply (shown_card_raises w m result _ Hpressed Hmodule Hanswer).
  unfold card_of, getitem. rewrite Hp, Hc, Hr. cbn.
  destruct v as [ |f| | ]; [reflexivity|destruct (Hv f eq_refl)|reflexivity..].
Qed.

(** X4. With a float risk score, a confidence that cannot take the percent
    format makes the f-string raise before [st.markdown] is called: the page
    shows that exception and no card. *)
Theorem unformattable_confidence_reported
    (w : predictor_widgets) (m : ml_module) (result : dict)
    (p c : pyval) (r : spec_float) (e : exception) :
  w_predict_button w = true ->
  ml_models = Some m ->
  ml_predict_diabetes m (prepare_patient_data w) = Ok result ->
  result !! "prediction" = Some p ->
  result !! "confidence" = Some c ->
  result !! "risk_score" = Some (VFloat r) ->
  format_percent c = Raise e ->
  shown (log (render_diabetes_predictor repr ml_models w))
  = predictor_form ++ predictor_spinner ++ error_notice e /\
  (forall s, c = VStr s ->
             e = ValueError "Unknown format code '%' for object of type 'str'") /\
  (c = VNone ->
   e = TypeError "unsupported format string passed to NoneType.__format__").
Proof.
  intros Hpressed Hmodule Hanswer Hp Hc Hr Hformat.
  split; [|split].
  - apply (shown_card_raises w m result _ Hpressed Hmodule Hanswer).
    unfold card_of, getitem. rewrite Hp, Hc, Hr. cbn.
    rewrite classify_risk_float. cbn. destruct (risk_level_of r).
    rewrite Hformat. reflexivity.
  - intros s ->. injection Hformat as <-. reflexivity.
  - intros ->. injection Hformat as <-. reflexivity.
Qed.

(** X5. A recommendations value that cannot be iterated makes the loop
    raise after the card and the heading were sent: the page shows the
    card, the heading and then the error notice. *)
Theorem card_then_error
    (w : predictor_widgets) (m : ml_module) (result : dict)
    (p v : pyval) (c r : spec_float) :
  w_predict_button w = true ->
  ml_models = Some m ->
  ml_predict_diabetes m (prepare_patient_data w) = Ok result ->
  result !! "prediction" = Some p ->
  result !! "confidence" = Some (VFloat c) ->
  result !! "risk_score" = Some (VFloat r) ->
  result !! "recommendations" = Some v ->
  iterable v = false ->
  shown (log (render_diabetes_predictor repr ml_models w))
  = predictor_form ++ predictor_spinner
    ++ display_bundle repr p c r []
    ++ error_notice (TypeError ("'" +:+ type_name v +:+ "' object is not iterable")).
Proof.
  intros Hpressed Hmodule Hanswer Hp Hc Hr Hrecs Hv.
  rewrite (shown_render_pressed w Hpressed).
  rewrite (try_block_loop_raises repr ml_models _ _ _
             (TypeError ("'" +:+ type_name v +:+ "' object is not iterable")) _
             (predict_diabetes_answers m _ result Hmodule Hanswer)
             (card_of_typed repr _ _ _ _ Hp Hc Hr)).
  - reflexivity.
  - unfold dict_get. rewrite Hrecs. destruct v; try discriminate Hv; reflexivity.
Qed.

(** X6. An answer with the fields of the data model always gets its
    complete bundle and never the error notice: the card, the heading and
    one numbered line per item of the recommendations. *)
Theorem typed_answer_displays_bundle
    (w : predictor_widgets) (m : ml_module) (result : dict)
    (p : pyval) (c r : spec_float) (items : list pyval) :
  w_predict_button w = true ->
  ml_models = Some m ->
  ml_predict_diabetes m (prepare_patient_data w) = Ok result ->
  result !! "prediction" = Some p ->
  result !! "confidence" = Some (VFloat c) ->
  result !! "risk_score" = Some (VFloat r) ->
  result !! "recommendations" = Some (VList items) ->
  shown (log (render_diabetes_predictor repr ml_models w))
  = predictor_form ++ predictor_spinner ++ display_bundle repr p c r items /\
  errors_of (log (render_diabetes_predictor repr ml_models w)) = [] /\
  length (numbered repr items 1) = length items.
Proof.
  intros Hpressed Hmodule Hanswer Hp Hc Hr Hrecs.
  assert (py_iter (dict_get result "recommendations" (VList [])) = Ok items) as Hiter.
  { unfold dict_get. rewrite Hrecs. reflexivity. }
  pose proof (try_block_complete repr ml_models _ _ _ _ _
                (predict_diabetes_answers m _ result Hmodule Hanswer)
                (card_of_typed repr _ _ _ _ Hp Hc Hr) Hiter) as Hblock.
  split; [|split].
  - rewrite (shown_render_pressed w Hpressed), Hblock.
    unfold log. cbn [snd]. unfold display_bundle. cbn.
    rewrite shown_writes. reflexivity.
  - destruct (render_pressed repr ml_models w Hpressed) as [_ ->].
    rewrite Hblock. unfold log. cbn [snd]. unfold errors_of. cbn.
    apply errors_of_writes.
  - apply numbered_length.
Qed.

End PredictionTab.

(** ** The risk level grows with the score *)



(** ** The sidebar and the document tab *)

Section Pages.

Variable repr : pyval -> string.
Variable ml_models : option ml_module.

(** X8. When the generator answers a record, the sidebar shows that record
    with [st.json] below the statistics and no error box. *)
Theorem sample_record_displayed
    (m : ml_module) (page : string) (sample : patient_data) :
  ml_models = Some m ->
  ml_create_sample_patient_data m = Ok sample ->
  render_sidebar ml_models page true
  = (Ok page, sidebar_head ++ [CallCreateSamplePatientData; StJson sample]).
Proof.
  intros Hmodule Hsample. unfold render_sidebar.
  rewrite create_sample_patient_data_cases, Hmodule, Hsample. reflexivity.
Qed.

Lemma render_sidebar_returns (page : string) (sample_button : bool) :
  returned (render_sidebar ml_models page sample_button) = Ok page.
Proof.
  unfold render_sidebar. rewrite create_sample_patient_data_cases.
  destruct sample_button; [|reflexivity].
  destruct ml_models as [m|]; [|reflexivity].
  destruct (ml_create_sample_patient_data m); reflexivity.
Qed.

Lemma render_document_analyzer_returns
    (uploaded : option uploaded_file) (analyze_button : bool) :
  returned (render_document_analyzer uploaded analyze_button) = Ok tt.
Proof. destruct uploaded, analyze_button; reflexivity. Qed.

(** X9. The sidebar always returns the selection of the radio and never
    raises; it calls the generator once when the button is pressed and the
    import succeeded, and never otherwise; without the button it shows the
    navigation and the statistics only. *)
Theorem sidebar_returns_selection (page : string) (sample_button : bool) :
  returned (render_sidebar ml_models page sample_button) = Ok page /\
  sample_calls (log (render_sidebar ml_models page sample_button))
  = (if sample_button
     then match ml_models with Some _ => [CallCreateSamplePatientData] | None => [] end
     else []) /\
  (sample_button = false ->
   log (render_sidebar ml_models page sample_button) = sidebar_head).
Proof.
  unfold render_sidebar. rewrite create_sample_patient_data_cases.
  destruct sample_button; [|repeat split; reflexivity].
  destruct ml_models as [m|]; [|repeat split; discriminate || reflexivity].
  destruct (ml_create_sample_patient_data m);
    repeat split; discriminate || reflexivity.
Qed.

(** X10. The document tab shows the analysis summary exactly when a file is
    uploaded and the button is pressed; without a file it shows the header
    and the note only, whatever the button; it never raises. *)
Theorem analysis_needs_file_and_button
    (uploaded : option uploaded_file) (analyze_button : bool) :
  returned (render_document_analyzer uploaded analyze_button) = Ok tt /\
  analysis_output (log (render_document_analyzer uploaded analyze_button))
  = (match uploaded with
     | Some _ => if analyze_button then [analysis_summary] else []
     | None => []
     end) /\
  (uploaded = None ->
   log (render_document_analyzer uploaded analyze_button) = analyzer_head).
Proof.
  destruct uploaded as [file|], analyze_button;
    repeat split; discriminate || reflexivity.
Qed.

(** ** The dispatch of [main] *)

Lemma main_log (s : session) :
  returned (main repr ml_models s) = Ok tt /\
  log (main repr ml_models s)
  = page_top
    ++ log (render_sidebar ml_models (s_page s) (s_sample_button s))
    ++ (if String.eqb (s_page s) "🩺 Diabetes Prediction" then
          log (render_diabetes_predictor repr ml_models (s_widgets s))
        else if String.eqb (s_page s) "📄 Document Analysis" then
          log (render_document_analyzer (s_uploaded s) (s_analyze_button s))
        else if String.eqb (s_page s) "ℹ️ About" then
          log render_about_page
        else []).
Proof.
  unfold main.
  pose proof (render_sidebar_returns (s_page s) (s_sample_button s)) as Hside.
  pose proof (render_diabetes_predictor_returns repr ml_models (s_widgets s)) as Htab.
  pose proof (render_document_analyzer_returns (s_uploaded s) (s_analyze_button s)) as Hdoc.
  destruct (render_sidebar ml_models (s_page s) (s_sample_button s)) as [ret1 side].
  destruct (render_diabetes_predictor repr ml_models (s_widgets s)) as [ret2 tab].
  destruct (render_document_analyzer (s_uploaded s) (s_analyze_button s)) as [ret3 doc].
  unfold returned in Hside, Htab, Hdoc. cbn [fst] in Hside, Htab, Hdoc.
  subst ret1 ret2 ret3. cbn.
  destruct (String.eqb (s_page s) "🩺 Diabetes Prediction"); [split; reflexivity|].
  destruct (String.eqb (s_page s) "📄 Document Analysis"); [split; reflexivity|].
  destruct (String.eqb (s_page s) "ℹ️ About"); split; reflexivity.
Qed.


Lemma predictor_calls_sidebar (page : string) (sample_button : bool) :
  predictor_calls (log (render_sidebar ml_models page sample_button)) = [].
Proof.
  unfold render_sidebar. rewrite create_sample_patient_data_cases.
  destruct sample_button; [|reflexivity].
  destruct ml_models as [m|]; [|reflexivity].
  destruct (ml_create_sample_patient_data m); reflexivity.
Qed.

(** X12. In a whole run the predictor is called at most once: once, with
    the record of the form, when the prediction tab is selected, its button
    is pressed and the import succeeded, and never otherwise (not from the
    sidebar, the document tab or the About page). *)
Theorem main_calls_predictor_once (s : session) :
  predictor_calls (log (main repr ml_models s))
  = (if String.eqb (s_page s) "🩺 Diabetes Prediction"
        && w_predict_button (s_widgets s)
     then match ml_models with
          | Some _ => [prepare_patient_data (s_widgets s)]
          | None => []
          end
     else []).
Proof.
  rewrite (proj2 (main_log s)), !predictor_calls_app, predictor_calls_sidebar.
  destruct (String.eqb (s_page s) "🩺 Diabetes Prediction"); cbn [andb].
  - rewrite (predictor_calls_render repr ml_models (s_widgets s)). reflexivity.
  - destruct (String.eqb (s_page s) "📄 Document Analysis").
    + destruct (s_uploaded s), (s_analyze_button s); reflexivity.
    + destruct (String.eqb (s_page s) "ℹ️ About"); reflexivity.
Qed.

End Pages.

(** ** Percentages of the unit interval stay below 100.0% *)













(** * The statements at concrete inputs *)

(** The scenario of the specification: the stub answers Non-diabetic with
    confidence 0.84, risk score 0.3 and one recommendation. *)
Example scenario_low_risk :
  shown (log (render_diabetes_predictor stub_repr (Some stub_module) example_widgets))
  = predictor_form ++ predictor_spinner
    ++ [ StMarkdown (prediction_card "risk-low" "Non-diabetic" "Low Risk" "84.0%" "30.0%");
         StSubheader "📋 Personalized Recommendations";
         StWrite "1. Maintain current diet" ].
Proof. vm_compute. reflexivity. Qed.

Lemma risk_level_thresholds_witness :
  classify_risk (VFloat Float.lit_0_3) = Ok ("risk-low", "Low Risk").
Proof.
  exact (proj1 (risk_level_thresholds Float.lit_0_3) eq_refl eq_refl).
Defined.

Lemma recommendations_numbered_in_order_witness :
  exists lines : list string,
    display_recommendations stub_repr example_result
    = (Ok tt, StSubheader "📋 Personalized Recommendations" :: (StWrite <$> lines)) /\
    length lines = length ["Maintain current diet"] /\
    (forall (i : nat) (rec : string),
        ["Maintain current diet"] !! i = Some rec ->
        lines !! i = Some (pretty (Z.of_nat i + 1) +:+ ". " +:+ rec)) /\
    (["Maintain current diet"] = ["A"; "B"] -> lines = ["1. A"; "2. B"]).
Proof.
  apply (recommendations_numbered_in_order stub_repr example_result
           ["Maintain current diet"]).
  vm_compute. reflexivity.
Defined.

Lemma percent_has_one_decimal_witness :
  exists (s : bool) (n d : Z),
    0 <= n /\ 0 <= d <= 9 /\ String.length (pretty d) = 1%nat /\
    format_percent (VFloat Float.lit_0_841)
    = Ok (Float.sign_str s +:+ pretty n +:+ "." +:+ pretty d +:+ "%") /\
    nearest_tenths (Float.mul Float.lit_0_841 Float.lit_100) (10 * n + d).
Proof.
  apply (proj1 percent_has_one_decimal Float.lit_0_841); reflexivity.
Defined.




Lemma missing_recommendations_default_witness :
  render_diabetes_predictor stub_repr (Some terse_module) example_widgets
  = (Ok tt,
     predictor_form ++ predictor_spinner
     ++ [ CallPredictDiabetes (prepare_patient_data example_widgets);
          StMarkdown (prediction_card (fst (risk_level_of Float.lit_0_3))
                        (py_str stub_repr (VStr "Non-diabetic"))
                        (snd (risk_level_of Float.lit_0_3))
                        (Float.format_1pct Float.lit_0_84)
                        (Float.format_1pct Float.lit_0_3));
          StSubheader "📋 Personalized Recommendations" ]).
Proof.
  apply (missing_recommendations_default stub_repr (Some terse_module) example_widgets
           terse_module (delete "recommendations" example_result));
    vm_compute; reflexivity.
Defined.

Lemma family_history_is_flag_witness :
  (w_family_history example_widgets = "Yes" ->
   family_history (prepare_patient_data example_widgets) = 1) /\
  (w_family_history example_widgets <> "Yes" ->
   family_history (prepare_patient_data example_widgets) = 0) /\
  (family_history (prepare_patient_data example_widgets) = 0 \/
   family_history (prepare_patient_data example_widgets) = 1).
Proof.
  apply (family_history_is_flag stub_repr (Some stub_module) example_widgets).
  vm_compute. left. reflexivity.
Defined.

Lemma sample_failure_is_silent_witness :
  let run := render_sidebar (Some failing_module) "📄 Document Analysis" true in
  returned run = Ok "📄 Document Analysis" /\
  shown (log run) = sidebar_head ++ [StError "Sample data not available"] /\
  List.filter is_json (log run) = [].
Proof.
  apply (sample_failure_is_silent (Some failing_module) "📄 Document Analysis"
           example_exception).
  reflexivity.
Defined.

(** ** The further properties at concrete inputs *)

Lemma missing_field_reported_witness :
  let page := shown (log (render_diabetes_predictor stub_repr
                            (Some (answering (delete "confidence" example_result)))
                            example_widgets)) in
  (delete "confidence" example_result !! "prediction" = None ->
   page = predictor_form ++ predictor_spinner ++ error_notice (KeyError "prediction")) /\
  (is_Some (delete "confidence" example_result !! "prediction") ->
   delete "confidence" example_result !! "confidence" = None ->
   page = predictor_form ++ predictor_spinner ++ error_notice (KeyError "confidence")) /\
  (is_Some (delete "confidence" example_result !! "prediction") ->
   is_Some (delete "confidence" example_result !! "confidence") ->
   delete "confidence" example_result !! "risk_score" = None ->
   page = predictor_form ++ predictor_spinner ++ error_notice (KeyError "risk_score")).
Proof.
  apply (missing_field_reported stub_repr
           (Some (answering (delete "confidence" example_result)))
           example_widgets (answering (delete "confidence" example_result)));
    reflexivity.
Defined.

Lemma non_float_risk_score_reported_witness :
  shown (log (render_diabetes_predictor stub_repr
                (Some (answering (<["risk_score" := VStr "0.3"]> example_result)))
                example_widgets))
  = predictor_form ++ predictor_spinner
    ++ error_notice (TypeError ("'>=' not supported between instances of '"
                                +:+ type_name (VStr "0.3") +:+ "' and 'float'")).
Proof.
  apply (non_float_risk_score_reported stub_repr
           (Some (answering (<["risk_score" := VStr "0.3"]> example_result)))
           example_widgets
           (answering (<["risk_score" := VStr "0.3"]> example_result))
           (<["risk_score" := VStr "0.3"]> example_result)
           (VStr "Non-diabetic") (VFloat Float.lit_0_84) (VStr "0.3"));
    first [ vm_compute; reflexivity | intros f; discriminate ].
Defined.

Lemma unformattable_confidence_reported_witness :
  shown (log (render_diabetes_predictor stub_repr
                (Some (answering (<["confidence" := VStr "84%"]> example_result)))
                example_widgets))
  = predictor_form ++ predictor_spinner
    ++ error_notice (ValueError "Unknown format code '%' for object of type 'str'") /\
  (forall s, VStr "84%" = VStr s ->
             ValueError "Unknown format code '%' for object of type 'str'"
             = ValueError "Unknown format code '%' for object of type 'str'") /\
  (VStr "84%" = VNone ->
   ValueError "Unknown format code '%' for object of type 'str'"
   = TypeError "unsupported format string passed to NoneType.__format__").
Proof.
  apply (unformattable_confidence_reported stub_repr
           (Some (answering (<["confidence" := VStr "84%"]> example_result)))
           example_widgets
           (answering (<["confidence" := VStr "84%"]> example_result))
           (<["confidence" := VStr "84%"]> example_result)
           (VStr "Non-diabetic") (VStr "84%") Float.lit_0_3);
    vm_compute; reflexivity.
Defined.

Lemma card_then_error_witness :
  shown (log (render_diabetes_predictor stub_repr
                (Some (answering (<["recommendations" := VNone]> example_result)))
                example_widgets))
  = predictor_form ++ predictor_spinner
    ++ display_bundle stub_repr (VStr "Non-diabetic") Float.lit_0_84 Float.lit_0_3 []
    ++ error_notice (TypeError ("'" +:+ type_name VNone +:+ "' object is not iterable")).
Proof.
  apply (card_then_error stub_repr
           (Some (answering (<["recommendations" := VNone]> example_result)))
           example_widgets
           (answering (<["recommendations" := VNone]> example_result))
           (<["recommendations" := VNone]> example_result));
    vm_compute; reflexivity.
Defined.

Lemma typed_answer_displays_bundle_witness :
  shown (log (render_diabetes_predictor stub_repr (Some stub_module) example_widgets))
  = predictor_form ++ predictor_spinner
    ++ display_bundle stub_repr (VStr "Non-diabetic") Float.lit_0_84 Float.lit_0_3
         [VStr "Maintain current diet"] /\
  errors_of (log (render_diabetes_predictor stub_repr (Some stub_module) example_widgets))
  = [] /\
  length (numbered stub_repr [VStr "Maintain current diet"] 1)
  = length [VStr "Maintain current diet"].
Proof.
  apply (typed_answer_displays_bundle stub_repr (Some stub_module) example_widgets
           stub_module example_result);
    vm_compute; reflexivity.
Defined.


Lemma sample_record_displayed_witness :
  render_sidebar (Some stub_module) "ℹ️ About" true
  = (Ok "ℹ️ About",
     sidebar_head
     ++ [ CallCreateSamplePatientData;
          StJson (PatientData 45 Float.lit_25_0 100 120 80 0 3 3 3) ]).
Proof.
  apply (sample_record_displayed (Some stub_module) stub_module); reflexivity.
Defined.

